(** * Categories: a list / edit / delete manager over a GraphQL API

    Shallow embedding of [graphql-fe/src/components/Categories.tsx].

    The component is a function of the values its hooks return at one
    render (the query result, the three mutation errors, the two pieces of
    local state) to the element tree it renders.  Event handlers are
    closures over those render-time values; they are embedded as
    computations in a small monad that records, in program order, the state
    setters and mutation functions they call, and that can throw a
    [TypeError] where the source reads a property without optional
    chaining. *)

From Stdlib Require Import String List Bool ZArith Lia.
Import ListNotations.
Open Scope string_scope.

(** ** JavaScript values used by the component *)

Module JS.

(** A value of type [string | undefined]: [None] is [undefined]. *)
Definition str := option string.

(** Truthiness of a [string | undefined]: [undefined] and the empty
    string are falsy, every other string is truthy. *)
Definition truthy (v : str) : bool :=
  match v with
  | Some s => negb (s =? "")
  | None => false
  end.

(** [a || b] on [string | undefined]. *)
Definition or (a b : str) : str := if truthy a then a else b.

(** Truthiness of an object reference or [undefined]. *)
Definition defined {A : Type} (o : option A) : bool :=
  match o with
  | Some _ => true
  | None => false
  end.

(** String conversion inside a template literal. *)
Definition template (v : str) : string :=
  match v with
  | Some s => s
  | None => "undefined"
  end.

End JS.

(** ** GraphQL documents and the data they carry *)

(** The query and the three mutations declared with [gql]. *)
Inductive Query := GET_ALL.

Inductive Mutation := ADD_ENTITY | DELETE_ENTITY | UPDATE_ENTITY.

(** [interface Entity]: every field is optional. *)
Record Entity := mkEntity {
  nodeId : JS.str;
  id : option Z;
  description : JS.str
}.

(** [interface AllEntity { allCategories: { nodes: Entity[] } }]. *)
Record Connection := { nodes : list Entity }.
Record AllEntity := { allCategories : Connection }.

(** The part of Apollo's error object that the component reads. *)
Record ApolloError := { message : string }.

(** The [variables] object of a mutation call, as the list of its
    properties in the order the object literal writes them. *)
Definition Variables := list (string * JS.str).

(** The options each [useMutation] call is given. *)
Record MutationOptions := { refetchQueries : list Query }.

Definition useMutation_options (m : Mutation) : MutationOptions :=
  match m with
  | ADD_ENTITY => {| refetchQueries := [GET_ALL] |}
  | DELETE_ENTITY => {| refetchQueries := [GET_ALL] |}
  | UPDATE_ENTITY => {| refetchQueries := [GET_ALL] |}
  end.

Definition entityName : string := "Category".

(** ** Component state and hook results *)

(** The two [useState] cells. *)
Record State := mkState {
  displayModal : bool;
  entity : option Entity
}.

Definition initialState : State :=
  {| displayModal := false; entity := None |}.

(** What the four Apollo hooks return at one render. *)
Record HookResults := mkHooks {
  loading : bool;
  error : option ApolloError;
  data : option AllEntity;
  errorAdding : option ApolloError;
  errorDeleting : option ApolloError;
  errorUpdating : option ApolloError
}.

(** ** Event handlers *)

(** What a handler can do to the outside: call a state setter or call one
    of the three mutation functions. *)
Inductive Effect :=
| SetDisplayModal (b : bool)
| SetEntity (e : option Entity)
| Mutate (m : Mutation) (variables : Variables).

Inductive Exn := TypeError (msg : string).

(** A handler computation: the effects issued so far, and either the
    exception that stopped it or its result. *)
Definition Handler (A : Type) : Type := (list Effect * (Exn + A))%type.

Definition ret {A : Type} (a : A) : Handler A := ([], inr a).

Definition throw {A : Type} (e : Exn) : Handler A := ([], inl e).

Definition bind {A B : Type} (m : Handler A) (f : A -> Handler B) : Handler B :=
  match m with
  | (w, inl e) => (w, inl e)
  | (w, inr a) => let (w', r) := f a in ((w ++ w')%list, r)
  end.

Definition emit (e : Effect) : Handler unit := ([e], inr tt).

Declare Scope handler_scope.
Delimit Scope handler_scope with handler.
Notation "x <- c1 ;; c2" := (bind c1 (fun x => c2))
  (at level 61, c1 at next level, right associativity) : handler_scope.
Notation "c1 ;; c2" := (bind c1 (fun _ => c2))
  (at level 61, right associativity) : handler_scope.

(** The effects a handler issued, and whether it returned normally. *)
Definition effects {A : Type} (h : Handler A) : list Effect := fst h.

Definition returns {A : Type} (h : Handler A) : bool :=
  match snd h with
  | inr _ => true
  | inl _ => false
  end.

(** The setters and mutation functions the handlers close over. *)
Definition setDisplayModal (b : bool) : Handler unit := emit (SetDisplayModal b).
Definition setEntity (e : option Entity) : Handler unit := emit (SetEntity e).
Definition addEntity (v : Variables) : Handler unit := emit (Mutate ADD_ENTITY v).
Definition deleteEntity (v : Variables) : Handler unit := emit (Mutate DELETE_ENTITY v).
Definition updateEntity (v : Variables) : Handler unit := emit (Mutate UPDATE_ENTITY v).

(** Property reads on [Entity | undefined].  [entity?.p] yields
    [undefined] on [undefined]; [entity.p] throws there. *)
Definition opt_nodeId (e : option Entity) : JS.str :=
  match e with
  | Some x => nodeId x
  | None => None
  end.

Definition opt_description (e : option Entity) : JS.str :=
  match e with
  | Some x => description x
  | None => None
  end.

Definition read_nodeId (e : option Entity) : Handler JS.str :=
  match e with
  | Some x => ret (nodeId x)
  | None => throw (TypeError "Cannot read properties of undefined (reading 'nodeId')")
  end.

Definition read_description (e : option Entity) : Handler JS.str :=
  match e with
  | Some x => ret (description x)
  | None => throw (TypeError "Cannot read properties of undefined (reading 'description')")
  end.

Definition opt_message (e : option ApolloError) : JS.str :=
  match e with
  | Some x => Some (message x)
  | None => None
  end.

(** The effect of the state setters of a handler on the state; mutation
    calls leave the local state alone. *)
Definition apply_effect (st : State) (e : Effect) : State :=
  match e with
  | SetDisplayModal b => {| displayModal := b; entity := entity st |}
  | SetEntity x => {| displayModal := displayModal st; entity := x |}
  | Mutate _ _ => st
  end.

Definition run {A : Type} (st : State) (h : Handler A) : State :=
  fold_left apply_effect (effects h) st.

(** The mutation calls a handler made, in order. *)
Fixpoint mutations (w : list Effect) : list (Mutation * Variables) :=
  match w with
  | [] => []
  | Mutate m v :: w' => (m, v) :: mutations w'
  | _ :: w' => mutations w'
  end.

Section Handlers.
Local Open Scope handler_scope.

(** [handleSave], closed over the [entity] of the render. *)
Definition handleSave (entity : option Entity) : Handler unit :=
  setDisplayModal false ;;
  if JS.truthy (opt_nodeId entity) then
    k <- read_nodeId entity ;;
    d <- read_description entity ;;
    updateEntity [("nodeId", k); ("description", d)]
  else
    addEntity [("description", opt_description entity)].

(** [onClose] of the dialog. *)
Definition handleClose : Handler unit := setDisplayModal false.

(** [onClick] of the "New" button. *)
Definition handleNew : Handler unit :=
  setEntity None ;;
  setDisplayModal true.

(** [onClick] of a row's "Edit" button. *)
Definition handleEdit (entity : Entity) : Handler unit :=
  setEntity (Some entity) ;;
  setDisplayModal true.

(** [onClick] of a row's "Delete" button; [nodeId] is the one
    destructured from the row's entity. *)
Definition handleDelete (nodeId : JS.str) : Handler unit :=
  deleteEntity [("nodeId", nodeId)].

(** [{ ...entity, description: v }]: spreading [undefined] adds no
    property. *)
Definition spread_description (entity : option Entity) (v : string) : Entity :=
  match entity with
  | Some x => {| nodeId := nodeId x; id := id x; description := Some v |}
  | None => {| nodeId := None; id := None; description := Some v |}
  end.

(** [onChange] of the description input, at [e.target.value = v]. *)
Definition handleChange (entity : option Entity) (v : string) : Handler unit :=
  setEntity (Some (spread_description entity v)).

End Handlers.

(** ** Rendered elements *)

(** The input that [EntityDetails] renders. *)
Record EntityDetailsView := {
  value : string;
  onChange : string -> Handler unit
}.

Definition EntityDetails (entity : option Entity) : EntityDetailsView :=
  {| value := JS.template (JS.or (opt_description entity) (Some ""));
     onChange := handleChange entity |}.

(** The props handed to [ModalDialog]. *)
Record ModalDialogProps := {
  title : string;
  onClose : Handler unit;
  onSave : Handler unit;
  enableSave : bool;
  content : EntityDetailsView
}.

(** One [<tr>] of the table. *)
Record Row := {
  key : option Z;
  idCell : option Z;
  descriptionCell : JS.str;
  onEdit : Handler unit;
  onDelete : Handler unit
}.

Inductive Element :=
| Span (text : string)
| Page (modal : option ModalDialogProps) (onNew : Handler unit) (rows : list Row).

(** [renderData]: one row per node, in the order of [nodes]. *)
Definition renderRow (entity : Entity) : Row :=
  {| key := id entity;
     idCell := id entity;
     descriptionCell := description entity;
     onEdit := handleEdit entity;
     onDelete := handleDelete (nodeId entity) |}.

Definition renderData (d : AllEntity) : list Row :=
  map renderRow (nodes (allCategories d)).

(** The error line of the component. *)
Definition errorMessage (h : HookResults) : JS.str :=
  JS.or (JS.or (JS.or (opt_message (error h))
                      (opt_message (errorAdding h)))
               (opt_message (errorDeleting h)))
        (opt_message (errorUpdating h)).

(** The component. *)
Definition Categories (h : HookResults) (st : State) : Element :=
  if loading h then Span "Loading..."
  else if (JS.defined (error h) || JS.defined (errorAdding h)
           || JS.defined (errorDeleting h) || JS.defined (errorUpdating h))%bool
  then Span ("Error: " ++ JS.template (errorMessage h))
  else
    match data h with
    | None => Span "No records found."
    | Some d =>
        Page
          (if displayModal st
           then Some {| title := "New " ++ entityName;
                        onClose := handleClose;
                        onSave := handleSave (entity st);
                        enableSave := JS.truthy (opt_description (entity st));
                        content := EntityDetails (entity st) |}
           else None)
          handleNew
          (renderData d)
    end.

(** The dialog and the rows of a rendered element; a [<span>] has neither. *)
Definition modal_of (v : Element) : option ModalDialogProps :=
  match v with
  | Span _ => None
  | Page m _ _ => m
  end.

Definition rows_of (v : Element) : list Row :=
  match v with
  | Span _ => []
  | Page _ _ r => r
  end.

Definition is_table (v : Element) : bool :=
  match v with
  | Span _ => false
  | Page _ _ _ => true
  end.

(** ** The dialog shell *)

(** Modelled from the spec: the component [ModalDialog] of
    [./ModalDialog] is not among the sources.  The specification gives it
    as a surface [render(title, isOpen, onClose, onSave, saveEnabled,
    bodyContent)] with no logic of its own, whose save action is enabled
    only when [saveEnabled] holds and is otherwise not invocable (or a
    no-op).  Pressing its save button therefore runs [onSave] when
    [enableSave] is true and does nothing when it is false. *)
Definition ModalDialog_save (p : ModalDialogProps) : Handler unit :=
  if enableSave p then onSave p else ret tt.

(** ** The four operations, in the words of the specification *)

(** Load is the query; Create, Delete and Update are the mutations
    [ADD_ENTITY], [DELETE_ENTITY] and [UPDATE_ENTITY]. *)
Inductive Operation := Load | Create | Delete | Update.

Definition priority : list Operation := [Load; Create; Delete; Update].

Definition rank (o : Operation) : nat :=
  match o with
  | Load => 0
  | Create => 1
  | Delete => 2
  | Update => 3
  end.

Definition error_of (h : HookResults) (o : Operation) : option ApolloError :=
  match o with
  | Load => error h
  | Create => errorAdding h
  | Delete => errorDeleting h
  | Update => errorUpdating h
  end.

(** At least one of the four operations has produced an error. *)
Definition has_error (h : HookResults) : Prop :=
  exists o e, error_of h o = Some e.

(** The error of the first operation, in the given order, that has one:
    selection by presence of an error. *)
Fixpoint first_error (h : HookResults) (ops : list Operation) : option ApolloError :=
  match ops with
  | [] => None
  | o :: rest =>
      match error_of h o with
      | Some e => Some e
      | None => first_error h rest
      end
  end.

(** The message of the first operation, in the given order, whose error
    has a non-empty message: selection by truthiness of the message. *)
Fixpoint first_nonempty_message (h : HookResults) (ops : list Operation) : option string :=
  match ops with
  | [] => None
  | o :: rest =>
      match error_of h o with
      | Some e => if message e =? "" then first_nonempty_message h rest
                  else Some (message e)
      | None => first_nonempty_message h rest
      end
  end.

(** ** Declared variables of the mutations *)

(** The variables each [gql] mutation document declares, in order:
    [AddCategory($description)], [DeleteCategory($nodeId)],
    [UpdateCategory($nodeId, $description)]. *)
Definition declared_variables (m : Mutation) : list string :=
  match m with
  | ADD_ENTITY => ["description"]
  | DELETE_ENTITY => ["nodeId"]
  | UPDATE_ENTITY => ["nodeId"; "description"]
  end.

(** The value a [variables] object holds under a name; [None] when the
    object has no such property. *)
Fixpoint variable (name : string) (v : Variables) : option JS.str :=
  match v with
  | [] => None
  | (n, x) :: rest => if n =? name then Some x else variable name rest
  end.

(** ** User events *)

(** The events the rendered tree has a handler for: the "New" button, the
    "Edit" and "Delete" buttons of the row at a position, the [onClose]
    and [onSave] callbacks handed to the dialog, and a change of the
    description input to a new value. *)
Inductive Event :=
| ClickNew
| ClickEdit (i : nat)
| ClickDelete (i : nat)
| ClickClose
| ClickSave
| Input (v : string).

(** The handler a rendered element binds to an event, if it renders the
    control at all.  [onSave] is looked up whatever [enableSave] says:
    whether the dialog calls it when disabled is the dialog's business. *)
Definition handler_of (v : Element) (ev : Event) : option (Handler unit) :=
  match v with
  | Span _ => None
  | Page m onNew rows =>
      match ev with
      | ClickNew => Some onNew
      | ClickEdit i => option_map onEdit (nth_error rows i)
      | ClickDelete i => option_map onDelete (nth_error rows i)
      | ClickClose => option_map onClose m
      | ClickSave => option_map onSave m
      | Input x => option_map (fun d => onChange (content d) x) m
      end
  end.

(** One event at one render: the handler bound by the tree rendered from
    the hook results and the state runs; its setter calls give the next
    state, its mutation calls are reported.  An event with no handler in
    the tree changes nothing. *)
Definition dispatch (h : HookResults) (st : State) (ev : Event)
  : State * list (Mutation * Variables) :=
  match handler_of (Categories h st) ev with
  | Some hd => (run st hd, mutations (effects hd))
  | None => (st, [])
  end.

(** A session: a sequence of events, each with the hook results of the
    render it happens at. *)
Fixpoint session (st : State) (tr : list (HookResults * Event))
  : State * list (Mutation * Variables) :=
  match tr with
  | [] => (st, [])
  | (h, ev) :: rest =>
      let (st1, c1) := dispatch h st ev in
      let (st2, c2) := session st1 rest in
      (st2, (c1 ++ c2)%list)
  end.

(** The records the query has delivered at one render, and over a
    session. *)
Definition records (h : HookResults) : list Entity :=
  match data h with
  | Some d => nodes (allCategories d)
  | None => []
  end.

Definition loaded (tr : list (HookResults * Event)) : list Entity :=
  flat_map (fun p => records (fst p)) tr.

(** The hook results at which the component renders the page with the
    table: not loading, no error, data present. *)
Definition shows_table (h : HookResults) : bool :=
  is_table (Categories h initialState).

(** A run of changes of the description input, each at its own render. *)
Definition keystrokes (ks : list (HookResults * string)) : list (HookResults * Event) :=
  map (fun p => (fst p, Input (snd p))) ks.

(** A draft is a new one when it has neither [id] nor [nodeId], and an
    existing one when it has both. *)
Definition new_or_existing (e : Entity) : Prop :=
  (id e = None /\ nodeId e = None) \/ (id e <> None /\ nodeId e <> None).

(** The draft's [nodeId], when it has one, is that of a record seen. *)
Definition draft_from (seen : list Entity) (st : State) : Prop :=
  forall e, entity st = Some e ->
            nodeId e = None \/ exists r, In r seen /\ nodeId r = nodeId e.

(** The events bound to a handler that calls a mutation function. *)
Definition is_write (ev : Event) : bool :=
  match ev with
  | ClickSave | ClickDelete _ => true
  | _ => false
  end.

(** * Properties *)

(** ** Truthiness *)

Module JSFacts.

Lemma truthy_true_iff (v : JS.str) :
  JS.truthy v = true <-> exists s, v = Some s /\ s <> "".
Proof.
  destruct v as [s|]; simpl.
  - rewrite negb_true_iff. split.
    + intros H. exists s. split; [reflexivity|].
      intros ->. discriminate.
    + intros (s' & [= <-] & Hne).
      destruct (String.eqb_spec s ""); [contradiction | reflexivity].
  - split; [discriminate | intros (s & [=] & _)].
Qed.

Lemma truthy_false_iff (v : JS.str) :
  JS.truthy v = false <-> v = None \/ v = Some "".
Proof.
  destruct v as [s|]; simpl.
  - rewrite negb_false_iff. split.
    + intros H. right. apply String.eqb_eq in H. now subst.
    + intros [[=] | [= ->]]. reflexivity.
  - split; [now left | reflexivity].
Qed.

End JSFacts.

(** ** Basic facts about handlers and rendering *)

Lemma refetchQueries_GET_ALL (m : Mutation) :
  refetchQueries (useMutation_options m) = [GET_ALL].
Proof. destruct m; reflexivity. Qed.

Lemma handleSave_update (e : Entity) :
  JS.truthy (nodeId e) = true ->
  handleSave (Some e) =
  ([SetDisplayModal false;
    Mutate UPDATE_ENTITY [("nodeId", nodeId e); ("description", description e)]],
   inr tt).
Proof. intros H. unfold handleSave. simpl. rewrite H. reflexivity. Qed.

Lemma handleSave_create (ent : option Entity) :
  JS.truthy (opt_nodeId ent) = false ->
  handleSave ent =
  ([SetDisplayModal false;
    Mutate ADD_ENTITY [("description", opt_description ent)]],
   inr tt).
Proof. intros H. unfold handleSave. simpl. rewrite H. reflexivity. Qed.

Lemma has_error_defined (h : HookResults) :
  has_error h <->
  (JS.defined (error h) || JS.defined (errorAdding h)
   || JS.defined (errorDeleting h) || JS.defined (errorUpdating h))%bool = true.
Proof.
  split.
  - intros (o & e & H). destruct o; simpl in H; rewrite H; simpl;
      rewrite ?orb_true_r; reflexivity.
  - intros H.
    destruct (error h) as [e|] eqn:E1; [now exists Load, e|].
    destruct (errorAdding h) as [e|] eqn:E2; [now exists Create, e|].
    destruct (errorDeleting h) as [e|] eqn:E3; [now exists Delete, e|].
    destruct (errorUpdating h) as [e|] eqn:E4; [now exists Update, e|].
    discriminate.
Qed.

Lemma Categories_loading (h : HookResults) (st : State) :
  loading h = true -> Categories h st = Span "Loading...".
Proof. intros H. unfold Categories. now rewrite H. Qed.

Lemma Categories_error (h : HookResults) (st : State) :
  loading h = false -> has_error h ->
  Categories h st = Span ("Error: " ++ JS.template (errorMessage h)).
Proof.
  intros Hl He. apply has_error_defined in He.
  unfold Categories. now rewrite Hl, He.
Qed.

Lemma Categories_no_data (h : HookResults) (st : State) :
  loading h = false -> ~ has_error h -> data h = None ->
  Categories h st = Span "No records found.".
Proof.
  intros Hl He Hd. rewrite has_error_defined in He.
  apply not_true_is_false in He.
  unfold Categories. now rewrite Hl, He, Hd.
Qed.

Lemma is_table_inv (h : HookResults) (st : State) :
  is_table (Categories h st) = true ->
  exists d, data h = Some d /\
            rows_of (Categories h st) = renderData d /\
            modal_of (Categories h st) =
            (if displayModal st
             then Some {| title := "New " ++ entityName;
                          onClose := handleClose;
                          onSave := handleSave (entity st);
                          enableSave := JS.truthy (opt_description (entity st));
                          content := EntityDetails (entity st) |}
             else None).
Proof.
  unfold Categories.
  destruct (loading h); [discriminate|].
  destruct (_ || _)%bool; [discriminate|].
  destruct (data h) as [d|]; [|discriminate].
  intros _. exists d. repeat split.
Qed.

(** The [||] chain of the error line picks the first non-empty message,
    and ends on its last operand when there is none. *)
Lemma errorMessage_first_nonempty (h : HookResults) :
  errorMessage h =
  match first_nonempty_message h priority with
  | Some m => Some m
  | None => opt_message (errorUpdating h)
  end.
Proof.
  unfold errorMessage, priority, first_nonempty_message, error_of, JS.or.
  destruct (error h) as [[m1]|], (errorAdding h) as [[m2]|],
    (errorDeleting h) as [[m3]|], (errorUpdating h) as [[m4]|];
    cbn [JS.truthy opt_message message];
    repeat match goal with
      | |- context [?m =? ""] => destruct (m =? "") eqn:?; cbn [negb JS.truthy]
      end;
    try reflexivity; congruence.
Qed.

(** ** Rendering an empty list *)

(** C2, evaluated on the code: when the query has completed without any
    error and returned an empty list of nodes, the component renders the
    page with the table and zero rows; the line "No records found." is not
    what it shows. *)
Theorem C2_empty_list_renders_empty_table (st : State) :
  let h := {| loading := false; error := None;
              data := Some {| allCategories := {| nodes := [] |} |};
              errorAdding := None; errorDeleting := None;
              errorUpdating := None |} in
  is_table (Categories h st) = true /\
  rows_of (Categories h st) = [] /\
  Categories h st <> Span "No records found.".
Proof.
  cbn. repeat split. discriminate.
Qed.

(** ** The error line *)

(** C3 as stated fails at two inputs.  While the query is loading, an
    error that is present is not shown: the loading line is.  And when all
    four operations have failed and Load's message is the empty string,
    the line shows Create's message, not Load's. *)
Lemma C3_counterexample :
  (let h := {| loading := true; error := Some {| message := "boom" |};
               data := None; errorAdding := None; errorDeleting := None;
               errorUpdating := None |} in
   first_error h priority = Some {| message := "boom" |} /\
   Categories h initialState = Span "Loading..." /\
   Categories h initialState <> Span ("Error: " ++ "boom")) /\
  (let h := {| loading := false; error := Some {| message := "" |};
               data := None;
               errorAdding := Some {| message := "create failed" |};
               errorDeleting := Some {| message := "delete failed" |};
               errorUpdating := Some {| message := "update failed" |} |} in
   first_error h priority = Some {| message := "" |} /\
   Categories h initialState = Span "Error: create failed" /\
   Categories h initialState <> Span ("Error: " ++ "")).
Proof.
  cbn. repeat split; discriminate.
Qed.

(** C3, amended: whenever the query is not loading and at least one of
    Load, Create, Delete, Update has produced an error, the component
    renders a single error line and no table.  The message in it is the
    first non-empty message in the order [Load, Create, Delete, Update];
    when no failed operation has a non-empty message it is the last
    operand of the chain, Update's message or [undefined].  In particular,
    when Load has failed with a non-empty message, the message is Load's,
    whatever else has failed. *)
Theorem C3_error_line (h : HookResults) (st : State) :
  loading h = false ->
  has_error h ->
  is_table (Categories h st) = false /\
  Categories h st =
    Span ("Error: " ++
          match first_nonempty_message h priority with
          | Some m => m
          | None => JS.template (opt_message (errorUpdating h))
          end) /\
  (forall m, error h = Some {| message := m |} -> m <> "" ->
             Categories h st = Span ("Error: " ++ m)).
Proof.
  intros Hl He.
  pose proof (Categories_error h st Hl He) as Hv.
  rewrite errorMessage_first_nonempty in Hv.
  split; [now rewrite Hv|]. split.
  - rewrite Hv. now destruct (first_nonempty_message h priority).
  - intros m Hm Hne. rewrite Hv. cbn. rewrite Hm. cbn.
    destruct (String.eqb_spec m ""); [contradiction | reflexivity].
Qed.

(** The error line at a render where all four operations have failed. *)
Lemma C3_error_line_witness :
  let h := {| loading := false; error := Some {| message := "load failed" |};
              data := None;
              errorAdding := Some {| message := "create failed" |};
              errorDeleting := Some {| message := "delete failed" |};
              errorUpdating := Some {| message := "update failed" |} |} in
  loading h = false /\ has_error h /\
  is_table (Categories h initialState) = false /\
  Categories h initialState = Span "Error: load failed".
Proof.
  intros h.
  assert (He : has_error h) by (exists Load, {| message := "load failed" |}; reflexivity).
  split; [reflexivity|]. split; [exact He|].
  destruct (C3_error_line h initialState eq_refl He) as (Ht & Hv & _).
  split; [exact Ht | exact Hv].
Defined.

(** C10 as stated fails at three inputs.  Load and Delete have both
    failed with the empty message: the next failing operation after Load
    is Delete, but the line shows "undefined", not Delete's message.
    Load has failed with "L", Create with the empty message, Delete with
    "d": the line shows Load's message, not that of the operation after
    Create.  Load and Create have failed with the empty message, Delete
    with "d": the next failing operation after Load is Create, but the
    line shows Delete's message. *)
Lemma C10_counterexample :
  (let h := {| loading := false; error := Some {| message := "" |};
               data := None; errorAdding := None;
               errorDeleting := Some {| message := "" |};
               errorUpdating := None |} in
   error_of h Load = Some {| message := "" |} /\
   first_error h [Create; Delete; Update] = Some {| message := "" |} /\
   Categories h initialState = Span "Error: undefined" /\
   Categories h initialState <> Span ("Error: " ++ "")) /\
  (let h := {| loading := false; error := Some {| message := "L" |};
               data := None;
               errorAdding := Some {| message := "" |};
               errorDeleting := Some {| message := "d" |};
               errorUpdating := None |} in
   error_of h Create = Some {| message := "" |} /\
   first_error h [Delete; Update] = Some {| message := "d" |} /\
   Categories h initialState = Span "Error: L" /\
   Categories h initialState <> Span ("Error: " ++ "d")) /\
  (let h := {| loading := false; error := Some {| message := "" |};
               data := None;
               errorAdding := Some {| message := "" |};
               errorDeleting := Some {| message := "d" |};
               errorUpdating := None |} in
   error_of h Load = Some {| message := "" |} /\
   first_error h [Create; Delete; Update] = Some {| message := "" |} /\
   Categories h initialState = Span "Error: d" /\
   Categories h initialState <> Span ("Error: " ++ "")).
Proof.
  cbn. repeat split; discriminate.
Qed.

(** C10, amended: in the error view, shown when the query is not
    loading, the message is chosen by truthiness of the messages, not by
    presence of an error.  When an operation [earlier] has an error with
    the empty message, every operation before [later] in the order
    [Load, Create, Delete, Update] has either no error or an empty
    message, and [later] has failed with a non-empty message, the line
    shows [later]'s message and not the empty one. *)
Theorem C10_empty_message_falls_through
    (h : HookResults) (st : State) (earlier later : Operation) (m : string) :
  loading h = false ->
  rank earlier < rank later ->
  error_of h earlier = Some {| message := "" |} ->
  (forall o, rank o < rank later ->
             error_of h o = None \/ error_of h o = Some {| message := "" |}) ->
  error_of h later = Some {| message := m |} ->
  m <> "" ->
  Categories h st = Span ("Error: " ++ m) /\
  Categories h st <> Span ("Error: " ++ "").
Proof.
  intros Hl Hr He Hb Hm Hne.
  assert (Hv : Categories h st = Span ("Error: " ++ m)).
  { rewrite (Categories_error h st Hl) by (now exists later, {| message := m |}).
    rewrite errorMessage_first_nonempty.
    assert (Hf : first_nonempty_message h priority = Some m).
    { apply String.eqb_neq in Hne.
      destruct later; cbn in Hr, Hm, Hb |- *.
      - lia.
      - destruct (Hb Load ltac:(cbn; lia)) as [H0|H0]; cbn in H0; rewrite H0, Hm;
          cbn; now rewrite Hne.
      - destruct (Hb Load ltac:(cbn; lia)) as [H0|H0]; cbn in H0; rewrite H0;
          destruct (Hb Create ltac:(cbn; lia)) as [H1|H1]; cbn in H1; rewrite H1, Hm;
          cbn; now rewrite Hne.
      - destruct (Hb Load ltac:(cbn; lia)) as [H0|H0]; cbn in H0; rewrite H0;
          destruct (Hb Create ltac:(cbn; lia)) as [H1|H1]; cbn in H1; rewrite H1;
          destruct (Hb Delete ltac:(cbn; lia)) as [H2|H2]; cbn in H2; rewrite H2, Hm;
          cbn; now rewrite Hne. }
    now rewrite Hf. }
  split; [exact Hv|].
  rewrite Hv. intros [= H]. now destruct m.
Qed.

(** Load failed with an empty message, Create did not fail, Delete failed. *)
Lemma C10_empty_message_falls_through_witness :
  let h := {| loading := false; error := Some {| message := "" |};
              data := None; errorAdding := None;
              errorDeleting := Some {| message := "delete failed" |};
              errorUpdating := Some {| message := "update failed" |} |} in
  Categories h initialState = Span "Error: delete failed".
Proof.
  intros h.
  refine (proj1 (C10_empty_message_falls_through h initialState Load Delete
                   "delete failed" eq_refl _ eq_refl _ eq_refl _)).
  - cbn. lia.
  - intros [] Ho; cbn in Ho |- *; try lia; [now right | now left].
  - discriminate.
Defined.

(** ** Saving the draft *)

(** C4 as stated fails for a draft whose [nodeId] is defined but is the
    empty string: the test [entity?.nodeId] is falsy there and the create
    mutation is called. *)
Lemma C4_counterexample :
  let e := {| nodeId := Some ""; id := Some 1%Z; description := Some "Fruit" |} in
  nodeId e <> None /\
  mutations (effects (handleSave (Some e))) =
    [(ADD_ENTITY, [("description", Some "Fruit")])].
Proof.
  cbn. split; [discriminate | reflexivity].
Qed.

(** C4, amended: for every draft, [handleSave] calls the update mutation,
    with the draft's [nodeId] and [description], if and only if the
    draft's [nodeId] is defined and non-empty; otherwise it calls the
    create mutation with the draft's [description] and no [nodeId].  It
    makes exactly one mutation call, never both. *)
Theorem C4_save_dispatch (e : Entity) :
  (exists k, nodeId e = Some k /\ k <> "" /\
     mutations (effects (handleSave (Some e))) =
       [(UPDATE_ENTITY, [("nodeId", Some k); ("description", description e)])])
  \/
  ((nodeId e = None \/ nodeId e = Some "") /\
     mutations (effects (handleSave (Some e))) =
       [(ADD_ENTITY, [("description", description e)])]).
Proof.
  destruct (JS.truthy (nodeId e)) eqn:Ht.
  - left. rewrite (handleSave_update e Ht).
    apply JSFacts.truthy_true_iff in Ht as (k & Hk & Hne).
    exists k. rewrite Hk. repeat split; assumption.
  - right. rewrite (handleSave_create (Some e) Ht).
    apply JSFacts.truthy_false_iff in Ht. split; [exact Ht | reflexivity].
Qed.

(** C9: [handleSave] returns normally on every draft, the absent one
    included; with no draft it closes the dialog and calls the create
    mutation with an [undefined] description, and makes no update call. *)
Theorem C9_save_without_draft :
  handleSave None =
    ([SetDisplayModal false; Mutate ADD_ENTITY [("description", None)]], inr tt) /\
  mutations (effects (handleSave None)) = [(ADD_ENTITY, [("description", None)])] /\
  (forall ent : option Entity, returns (handleSave ent) = true).
Proof.
  repeat split.
  intros ent. destruct (JS.truthy (opt_nodeId ent)) eqn:Ht.
  - destruct ent as [e|]; [|discriminate].
    now rewrite (handleSave_update e Ht).
  - now rewrite (handleSave_create ent Ht).
Qed.

(** C6: [handleSave] calls [setDisplayModal(false)] first, on either
    branch, and only then makes its one mutation call; the state it leaves
    has the dialog closed, and the next render shows no dialog whatever the
    hooks report about the mutation. *)
Theorem C6_save_closes_dialog (ent : option Entity) (st : State) :
  (exists m v, effects (handleSave ent) = [SetDisplayModal false; Mutate m v]) /\
  displayModal (run st (handleSave ent)) = false /\
  entity (run st (handleSave ent)) = entity st /\
  (forall h : HookResults, modal_of (Categories h (run st (handleSave ent))) = None).
Proof.
  assert (He : exists m v, handleSave ent = ([SetDisplayModal false; Mutate m v], inr tt)).
  { destruct (JS.truthy (opt_nodeId ent)) eqn:Ht.
    - destruct ent as [e|]; [|discriminate].
      eexists _, _. exact (handleSave_update e Ht).
    - eexists _, _. exact (handleSave_create ent Ht). }
  destruct He as (m & v & He). rewrite He. cbn.
  split; [now exists m, v|]. repeat split.
  intros h. unfold Categories. cbn.
  destruct (loading h); [reflexivity|].
  destruct (_ || _)%bool; [reflexivity|].
  now destruct (data h).
Qed.

(** C5: in the dialog the component renders, the save action is enabled
    if and only if there is a draft and its description is a non-empty
    string.  With no draft, an [undefined] description or the empty one,
    the flag handed to the dialog is false and pressing save does not run
    [handleSave]: no setter and no mutation is called.  With a non-empty
    description, pressing save is [handleSave] on the draft. *)
Theorem C5_save_enabled (h : HookResults) (st : State) (m : ModalDialogProps) :
  modal_of (Categories h st) = Some m ->
  (enableSave m = true <->
   exists e d, entity st = Some e /\ description e = Some d /\ d <> "") /\
  (entity st = None \/
   (exists e, entity st = Some e /\
              (description e = None \/ description e = Some "")) ->
   enableSave m = false /\ ModalDialog_save m = ([], inr tt)) /\
  ((exists e d, entity st = Some e /\ description e = Some d /\ d <> "") ->
   ModalDialog_save m = handleSave (entity st)).
Proof.
  intros Hm.
  assert (Ht : is_table (Categories h st) = true).
  { destruct (Categories h st); [discriminate | reflexivity]. }
  destruct (is_table_inv h st Ht) as (d & _ & _ & Hmod).
  rewrite Hmod in Hm. destruct (displayModal st); [|discriminate].
  injection Hm as <-. unfold ModalDialog_save. cbn [enableSave onSave].
  assert (Hiff : JS.truthy (opt_description (entity st)) = true <->
                 exists e d, entity st = Some e /\ description e = Some d /\ d <> "").
  { rewrite JSFacts.truthy_true_iff. split.
    - intros (s & Hs & Hne). destruct (entity st) as [e|]; [|discriminate].
      now exists e, s.
    - intros (e & s & -> & Hs & Hne). now exists s. }
  split; [exact Hiff|]. split.
  - intros Hoff.
    assert (Hf : JS.truthy (opt_description (entity st)) = false).
    { apply JSFacts.truthy_false_iff.
      destruct Hoff as [-> | (e & -> & Hd)]; [now left | exact Hd]. }
    rewrite Hf. split; reflexivity.
  - intros Hon. apply Hiff in Hon. now rewrite Hon.
Qed.

(** A dialog open on a draft with the description "Veg": save is enabled
    and pressing it saves; on a draft whose description is the empty
    string it is disabled and pressing it does nothing. *)
Lemma C5_save_enabled_witness :
  let h := {| loading := false; error := None;
              data := Some {| allCategories := {| nodes := [] |} |};
              errorAdding := None; errorDeleting := None;
              errorUpdating := None |} in
  let veg := {| nodeId := None; id := None; description := Some "Veg" |} in
  let blank := {| nodeId := None; id := None; description := Some "" |} in
  (exists m, modal_of (Categories h {| displayModal := true; entity := Some veg |})
             = Some m /\
             enableSave m = true /\
             ModalDialog_save m = handleSave (Some veg)) /\
  (exists m, modal_of (Categories h {| displayModal := true; entity := Some blank |})
             = Some m /\
             enableSave m = false /\
             ModalDialog_save m = ([], inr tt)).
Proof.
  intros h veg blank.
  assert (Hveg : exists e d, Some veg = Some e /\ description e = Some d /\ d <> "").
  { exists veg, "Veg". repeat split. discriminate. }
  assert (Hblank : Some blank = None \/
                   exists e, Some blank = Some e /\
                             (description e = None \/ description e = Some "")).
  { right. exists blank. split; [reflexivity | now right]. }
  split.
  - eexists. split; [reflexivity|].
    destruct (C5_save_enabled h {| displayModal := true; entity := Some veg |}
                _ eq_refl) as (Hiff & _ & Hon).
    split; [exact (proj2 Hiff Hveg) | exact (Hon Hveg)].
  - eexists. split; [reflexivity|].
    destruct (C5_save_enabled h {| displayModal := true; entity := Some blank |}
                _ eq_refl) as (_ & Hoff & _).
    exact (Hoff Hblank).
Defined.

(** ** Editing the draft *)


(** ** Deleting a row *)

(** C8: when the table is rendered, the row at the position of a record
    of the loaded list has a delete action that makes exactly one call,
    the delete mutation with that record's [nodeId], returns normally, and
    leaves the dialog flag and the draft as they are. *)
Theorem C8_delete_row
    (h : HookResults) (st : State) (d : AllEntity) (i : nat) (record : Entity) :
  is_table (Categories h st) = true ->
  data h = Some d ->
  nth_error (nodes (allCategories d)) i = Some record ->
  exists row,
    nth_error (rows_of (Categories h st)) i = Some row /\
    effects (onDelete row) = [Mutate DELETE_ENTITY [("nodeId", nodeId record)]] /\
    returns (onDelete row) = true /\
    (forall st', run st' (onDelete row) = st').
Proof.
  intros Ht Hd Hn.
  destruct (is_table_inv h st Ht) as (d' & Hd' & Hrows & _).
  rewrite Hd in Hd'. injection Hd' as <-.
  exists (renderRow record). rewrite Hrows. unfold renderData.
  split; [now apply map_nth_error|].
  repeat split.
Qed.

(** The delete action of the only row of a one-record list. *)
Lemma C8_delete_row_witness :
  let k1 := {| nodeId := Some "k1"; id := Some 1%Z; description := Some "Fruit" |} in
  let d := {| allCategories := {| nodes := [k1] |} |} in
  let h := {| loading := false; error := None; data := Some d;
              errorAdding := None; errorDeleting := None;
              errorUpdating := None |} in
  exists row,
    nth_error (rows_of (Categories h initialState)) 0 = Some row /\
    effects (onDelete row) = [Mutate DELETE_ENTITY [("nodeId", Some "k1")]].
Proof.
  intros k1 d h.
  destruct (C8_delete_row h initialState d 0 k1 eq_refl eq_refl eq_refl)
    as (row & Hrow & Heff & _).
  exists row. split; [exact Hrow | exact Heff].
Defined.

(** * Further properties of the component *)

(** ** The shape of the rendered tree *)

Lemma shows_table_iff (h : HookResults) :
  shows_table h = true <->
  loading h = false /\ ~ has_error h /\ data h <> None.
Proof.
  unfold shows_table. rewrite has_error_defined. unfold Categories.
  destruct (loading h); cbn; [split; [discriminate | intros (H & _); discriminate]|].
  destruct (_ || _)%bool; cbn.
  - split; [discriminate | intros (_ & H & _); now elim H].
  - destruct (data h); cbn.
    + split; [intros _; repeat split; discriminate | reflexivity].
    + split; [discriminate | intros (_ & _ & H); now elim H].
Qed.

Lemma Categories_page (h : HookResults) (st : State) :
  shows_table h = true ->
  Categories h st =
  Page (if displayModal st
        then Some {| title := "New " ++ entityName;
                     onClose := handleClose;
                     onSave := handleSave (entity st);
                     enableSave := JS.truthy (opt_description (entity st));
                     content := EntityDetails (entity st) |}
        else None)
       handleNew
       (map renderRow (records h)).
Proof.
  unfold shows_table, records, Categories.
  destruct (loading h); [discriminate|].
  destruct (_ || _)%bool; [discriminate|].
  destruct (data h); [reflexivity | discriminate].
Qed.

Lemma Categories_span (h : HookResults) (st : State) :
  shows_table h = false -> exists t, Categories h st = Span t.
Proof.
  unfold shows_table, Categories.
  destruct (loading h); [now eexists|].
  destruct (_ || _)%bool; [now eexists|].
  destruct (data h); [discriminate | now eexists].
Qed.

(** X1: the component renders exactly one of four trees, and which one
    depends on the hook results alone, never on the local state: the
    loading line exactly when the query is loading; otherwise an error
    line exactly when some operation has an error; otherwise the
    no-records line exactly when there is no data object; otherwise the
    page with the table. *)
Theorem X1_view_cases (h : HookResults) (st : State) :
  (Categories h st = Span "Loading..." <-> loading h = true) /\
  ((exists m, Categories h st = Span ("Error: " ++ m)) <->
     loading h = false /\ has_error h) /\
  (Categories h st = Span "No records found." <->
     loading h = false /\ ~ has_error h /\ data h = None) /\
  (is_table (Categories h st) = true <->
     loading h = false /\ ~ has_error h /\ data h <> None).
Proof.
  rewrite has_error_defined. unfold Categories.
  destruct (loading h); cbn;
    [| destruct (_ || _)%bool; cbn; [| destruct (data h); cbn ] ];
    (split; [| split; [| split ] ]);
    (split; intros Hx);
    repeat match goal with
      | H : _ /\ _ |- _ => destruct H
      | H : exists _, _ |- _ => destruct H
      end;
    try discriminate; try congruence; try reflexivity;
    try (now eexists); try (now repeat split).
Qed.

(** X2: when the query is not loading and every operation that has
    failed carries the empty message, the error line has no message to
    show: it reads "Error: " when the update mutation is among the failed
    ones and "Error: undefined" when it is not. *)
Theorem X2_error_line_without_message (h : HookResults) (st : State) :
  loading h = false ->
  has_error h ->
  (forall o e, error_of h o = Some e -> message e = "") ->
  Categories h st =
    Span (if JS.defined (errorUpdating h) then "Error: " else "Error: undefined").
Proof.
  intros Hl He Hall.
  rewrite (Categories_error h st Hl He). unfold errorMessage.
  pose proof (Hall Load) as H1. pose proof (Hall Create) as H2.
  pose proof (Hall Delete) as H3. pose proof (Hall Update) as H4.
  cbn in H1, H2, H3, H4.
  destruct (error h) as [[m1]|];
    [specialize (H1 _ eq_refl); cbn in H1; subst m1|];
    (destruct (errorAdding h) as [[m2]|];
     [specialize (H2 _ eq_refl); cbn in H2; subst m2|]);
    (destruct (errorDeleting h) as [[m3]|];
     [specialize (H3 _ eq_refl); cbn in H3; subst m3|]);
    (destruct (errorUpdating h) as [[m4]|];
     [specialize (H4 _ eq_refl); cbn in H4; subst m4|]);
    reflexivity.
Qed.

(** The query alone has failed, with an empty message. *)
Lemma X2_error_line_without_message_witness :
  let h := {| loading := false; error := Some {| message := "" |};
              data := None; errorAdding := None; errorDeleting := None;
              errorUpdating := None |} in
  Categories h initialState = Span "Error: undefined".
Proof.
  intros h.
  refine (X2_error_line_without_message h initialState eq_refl _ _).
  - exists Load, {| message := "" |}. reflexivity.
  - intros [] e H; cbn in H; try discriminate.
    injection H as <-. reflexivity.
Defined.

(** ** The dialog *)

Lemma modal_inv (h : HookResults) (st : State) (m : ModalDialogProps) :
  modal_of (Categories h st) = Some m ->
  shows_table h = true /\ displayModal st = true /\
  m = {| title := "New " ++ entityName;
         onClose := handleClose;
         onSave := handleSave (entity st);
         enableSave := JS.truthy (opt_description (entity st));
         content := EntityDetails (entity st) |}.
Proof.
  intros Hm. destruct (shows_table h) eqn:Ht.
  - rewrite (Categories_page h st Ht) in Hm. cbn in Hm.
    destruct (displayModal st); [|discriminate].
    injection Hm as <-. repeat split.
  - destruct (Categories_span h st Ht) as (t & Hs).
    rewrite Hs in Hm. discriminate.
Qed.

(** X3: whenever the rendered dialog has its save action enabled, the
    save handler it carries makes exactly one mutation call and that call
    carries the draft's description, which is a non-empty string: the
    create mutation with that description alone, or the update mutation
    with it and a non-empty [nodeId]. *)
Theorem X3_enabled_save_sends_description
    (h : HookResults) (st : State) (m : ModalDialogProps) :
  modal_of (Categories h st) = Some m ->
  enableSave m = true ->
  exists d, d <> "" /\ opt_description (entity st) = Some d /\
    (mutations (effects (onSave m)) = [(ADD_ENTITY, [("description", Some d)])] \/
     exists k, k <> "" /\
       mutations (effects (onSave m)) =
         [(UPDATE_ENTITY, [("nodeId", Some k); ("description", Some d)])]).
Proof.
  intros Hm He.
  destruct (modal_inv h st m Hm) as (_ & _ & ->). cbn [enableSave onSave] in He |- *.
  apply JSFacts.truthy_true_iff in He as (d & Hd & Hne).
  exists d. repeat split; [exact Hne | exact Hd |].
  destruct (JS.truthy (opt_nodeId (entity st))) eqn:Hk.
  - right. destruct (entity st) as [e|]; [|discriminate]. cbn in Hd, Hk.
    rewrite (handleSave_update e Hk).
    apply JSFacts.truthy_true_iff in Hk as (k & Hk & Hkne).
    exists k. rewrite Hk, Hd. split; [exact Hkne | reflexivity].
  - left. rewrite (handleSave_create _ Hk), Hd. reflexivity.
Qed.

(** A dialog open on a new draft with the description typed in. *)
Lemma X3_enabled_save_sends_description_witness :
  let h := {| loading := false; error := None;
              data := Some {| allCategories := {| nodes := [] |} |};
              errorAdding := None; errorDeleting := None;
              errorUpdating := None |} in
  let st := {| displayModal := true;
               entity := Some {| nodeId := None; id := None;
                                 description := Some "Veg" |} |} in
  exists m, modal_of (Categories h st) = Some m /\
            exists d, d <> "" /\ opt_description (entity st) = Some d.
Proof.
  intros h st. eexists. split; [reflexivity|].
  destruct (X3_enabled_save_sends_description h st _ eq_refl eq_refl)
    as (d & Hne & Hd & _).
  exists d. split; [exact Hne | exact Hd].
Defined.

(** X4: the description input is a controlled input.  When the dialog is
    shown and the input changes to a value, no mutation is called, and the
    dialog rendered from the resulting state is still open, shows exactly
    that value in the input, has its save action enabled if and only if
    the value is non-empty, and its draft has the [id] and [nodeId] the
    draft had before (none, if there was no draft). *)
Theorem X4_input_round_trip
    (h : HookResults) (st : State) (m : ModalDialogProps) (v : string) :
  modal_of (Categories h st) = Some m ->
  let st' := fst (dispatch h st (Input v)) in
  snd (dispatch h st (Input v)) = [] /\
  opt_nodeId (entity st') = opt_nodeId (entity st) /\
  option_map id (entity st') = Some (match entity st with
                                     | Some e => id e
                                     | None => None
                                     end) /\
  exists m', modal_of (Categories h st') = Some m' /\
             value (content m') = v /\
             (enableSave m' = true <-> v <> "").
Proof.
  intros Hm.
  destruct (modal_inv h st m Hm) as (Ht & Hd & ->).
  destruct st as [b ent]. cbn in Hd. subst b.
  unfold dispatch. rewrite (Categories_page h _ Ht). cbn.
  split; [reflexivity|].
  split; [now destruct ent|].
  split; [now destruct ent|].
  rewrite (Categories_page h _ Ht). cbn.
  eexists. split; [reflexivity|]. cbn.
  assert (Hv : description (spread_description ent v) = Some v)
    by now destruct ent.
  unfold JS.or. rewrite Hv. cbn.
  destruct (String.eqb_spec v ""); cbn.
  - subst. split; [reflexivity|]. split; [discriminate | congruence].
  - split; [reflexivity|]. split; [now intros _ | reflexivity].
Qed.

(** Typing "Fruits" over the description of a loaded record. *)
Lemma X4_input_round_trip_witness :
  let k1 := {| nodeId := Some "k1"; id := Some 1%Z; description := Some "Fruit" |} in
  let h := {| loading := false; error := None;
              data := Some {| allCategories := {| nodes := [k1] |} |};
              errorAdding := None; errorDeleting := None;
              errorUpdating := None |} in
  let st := {| displayModal := true; entity := Some k1 |} in
  opt_nodeId (entity (fst (dispatch h st (Input "Fruits")))) = Some "k1".
Proof.
  intros k1 h st.
  exact (proj1 (proj2 (X4_input_round_trip h st _ "Fruits" eq_refl))).
Defined.

(** X5: pressing "New" on the page always opens the dialog on an absent
    draft, whatever draft an earlier save or close left in the state: no
    mutation is called, and the dialog rendered next has an empty input,
    a disabled save action, and a save handler that would call the create
    mutation. *)
Theorem X5_new_discards_stale_draft (h : HookResults) (st : State) :
  shows_table h = true ->
  dispatch h st ClickNew = ({| displayModal := true; entity := None |}, []) /\
  exists m, modal_of (Categories h (fst (dispatch h st ClickNew))) = Some m /\
            value (content m) = "" /\
            enableSave m = false /\
            mutations (effects (onSave m)) = [(ADD_ENTITY, [("description", None)])].
Proof.
  intros Ht. unfold dispatch. rewrite (Categories_page h st Ht). cbn.
  split; [reflexivity|].
  rewrite (Categories_page h _ Ht). cbn.
  eexists. split; [reflexivity|]. repeat split.
Qed.

(** "New" pressed while the state still holds the draft of an earlier edit. *)
Lemma X5_new_discards_stale_draft_witness :
  let h := {| loading := false; error := None;
              data := Some {| allCategories := {| nodes := [] |} |};
              errorAdding := None; errorDeleting := None;
              errorUpdating := None |} in
  let st := {| displayModal := false;
               entity := Some {| nodeId := Some "k1"; id := Some 1%Z;
                                 description := Some "Fruit" |} |} in
  dispatch h st ClickNew = ({| displayModal := true; entity := None |}, []).
Proof.
  intros h st. exact (proj1 (X5_new_discards_stale_draft h st eq_refl)).
Defined.

(** X6: pressing "Edit" on the row at the position of a loaded record
    calls no mutation and opens the dialog on that record, whatever the
    state held before.  The dialog rendered next is titled "New Category"
    all the same, shows the record's description in the input (the empty
    string if it has none), and its save action is enabled exactly when
    that description is non-empty. *)
Theorem X6_edit_opens_record
    (h : HookResults) (st : State) (i : nat) (r : Entity) :
  shows_table h = true ->
  nth_error (records h) i = Some r ->
  dispatch h st (ClickEdit i) = ({| displayModal := true; entity := Some r |}, []) /\
  exists m, modal_of (Categories h (fst (dispatch h st (ClickEdit i)))) = Some m /\
            title m = "New Category" /\
            value (content m) = match description r with
                                | Some s => s
                                | None => ""
                                end /\
            (enableSave m = true <-> exists s, description r = Some s /\ s <> "") /\
            onSave m = handleSave (Some r).
Proof.
  intros Ht Hn. unfold dispatch. rewrite (Categories_page h st Ht). cbn.
  rewrite (map_nth_error renderRow _ _ Hn). cbn.
  split; [reflexivity|].
  rewrite (Categories_page h _ Ht). cbn.
  eexists. split; [reflexivity|]. cbn.
  split; [reflexivity|]. split.
  - unfold JS.or. destruct (description r) as [s|]; cbn; [|reflexivity].
    destruct (String.eqb_spec s ""); cbn; congruence.
  - split; [apply JSFacts.truthy_true_iff | reflexivity].
Qed.

(** "Edit" on the only row of a one-record list. *)
Lemma X6_edit_opens_record_witness :
  let k1 := {| nodeId := Some "k1"; id := Some 1%Z; description := Some "Fruit" |} in
  let h := {| loading := false; error := None;
              data := Some {| allCategories := {| nodes := [k1] |} |};
              errorAdding := None; errorDeleting := None;
              errorUpdating := None |} in
  dispatch h initialState (ClickEdit 0) =
    ({| displayModal := true; entity := Some k1 |}, []).
Proof.
  intros k1 h.
  exact (proj1 (X6_edit_opens_record h initialState 0 k1 eq_refl eq_refl)).
Defined.

(** ** Events and the mutation calls they make *)

Arguments handleSave : simpl never.

(** Where a mutation call of one event comes from. *)
Lemma dispatch_call (h : HookResults) (st : State) (ev : Event)
      (m : Mutation) (vars : Variables) :
  In (m, vars) (snd (dispatch h st ev)) ->
  snd (dispatch h st ev) = [(m, vars)] /\
  shows_table h = true /\
  ((ev = ClickSave /\ displayModal st = true /\
    JS.truthy (opt_nodeId (entity st)) = false /\
    m = ADD_ENTITY /\
    vars = [("description", opt_description (entity st))]) \/
   (ev = ClickSave /\ displayModal st = true /\
    (exists e, entity st = Some e /\ JS.truthy (nodeId e) = true /\
               vars = [("nodeId", nodeId e); ("description", description e)]) /\
    m = UPDATE_ENTITY) \/
   (exists i r, ev = ClickDelete i /\ nth_error (records h) i = Some r /\
                m = DELETE_ENTITY /\ vars = [("nodeId", nodeId r)])).
Proof.
  unfold dispatch. destruct (shows_table h) eqn:Ht.
  2:{ destruct (Categories_span h st Ht) as (t & ->). cbn. intros []. }
  rewrite (Categories_page h st Ht).
  destruct ev as [ | i | i | | | v]; cbn.
  - intros [].
  - rewrite nth_error_map.
    destruct (nth_error (records h) i); cbn; intros [].
  - rewrite nth_error_map.
    destruct (nth_error (records h) i) as [r|] eqn:Hr; cbn; [|intros []].
    intros [[= <- <-] | []]. split; [reflexivity|]. split; [reflexivity|].
    right. right. now exists i, r.
  - destruct (displayModal st); cbn; intros [].
  - destruct (displayModal st); cbn; [|intros []].
    destruct (JS.truthy (opt_nodeId (entity st))) eqn:Hk.
    + destruct (entity st) as [e|] eqn:He; [|discriminate]. cbn in Hk.
      rewrite (handleSave_update e Hk). cbn.
      intros [[= <- <-] | []]. split; [reflexivity|]. split; [reflexivity|].
      right. left. repeat split. now exists e.
    + rewrite (handleSave_create _ Hk). cbn.
      intros [[= <- <-] | []]. split; [reflexivity|]. split; [reflexivity|].
      left. repeat split.
  - destruct (displayModal st); cbn; intros [].
Qed.

(** The draft after one event. *)
Lemma dispatch_entity (h : HookResults) (st : State) (ev : Event) :
  entity (fst (dispatch h st ev)) = entity st \/
  entity (fst (dispatch h st ev)) = None \/
  (exists r, In r (records h) /\ entity (fst (dispatch h st ev)) = Some r) \/
  (exists v, entity (fst (dispatch h st ev)) =
             Some (spread_description (entity st) v)).
Proof.
  unfold dispatch. destruct (shows_table h) eqn:Ht.
  2:{ destruct (Categories_span h st Ht) as (t & ->). cbn. now left. }
  rewrite (Categories_page h st Ht).
  destruct ev as [ | i | i | | | v]; cbn.
  - right. left. reflexivity.
  - rewrite nth_error_map.
    destruct (nth_error (records h) i) as [r|] eqn:Hr; cbn; [|now left].
    right. right. left. exists r. split; [|reflexivity].
    eapply nth_error_In; eassumption.
  - rewrite nth_error_map.
    destruct (nth_error (records h) i); cbn; now left.
  - destruct (displayModal st); cbn; now left.
  - destruct (displayModal st); cbn; [|now left].
    destruct (JS.truthy (opt_nodeId (entity st))) eqn:Hk.
    + destruct (entity st) as [e|] eqn:He; [|discriminate]. cbn in Hk.
      rewrite (handleSave_update e Hk). cbn. now left.
    + rewrite (handleSave_create _ Hk). cbn. now left.
  - destruct (displayModal st); cbn; [|now left].
    right. right. right. now exists v.
Qed.

Lemma session_app (st : State) (t1 t2 : list (HookResults * Event)) :
  session st (t1 ++ t2) =
  (fst (session (fst (session st t1)) t2),
   (snd (session st t1) ++ snd (session (fst (session st t1)) t2))%list).
Proof.
  revert st. induction t1 as [|[h ev] t1 IH]; intros st; cbn.
  - now destruct (session st t2).
  - destruct (dispatch h st ev) as [st1 c1]. rewrite IH.
    destruct (session st1 t1) as [st2 c2]. cbn.
    now rewrite app_assoc.
Qed.

(** X7: one event makes at most one mutation call, and it makes one
    exactly in two situations, both on the page with the table: [onSave]
    while the dialog is shown, and "Delete" on a row that exists.  "New",
    "Edit", [onClose] and typing never call a mutation, and nothing does
    while the loading line, the error line or the no-records line is
    shown. *)
Theorem X7_calls_per_event (h : HookResults) (st : State) (ev : Event) :
  length (snd (dispatch h st ev)) <= 1 /\
  (snd (dispatch h st ev) <> [] <->
   shows_table h = true /\
   ((ev = ClickSave /\ displayModal st = true) \/
    (exists i, ev = ClickDelete i /\ i < length (records h)))).
Proof.
  split.
  - destruct (snd (dispatch h st ev)) as [|[m v] l] eqn:Hc; [cbn; lia|].
    destruct (dispatch_call h st ev m v) as (Hs & _).
    { rewrite Hc. now left. }
    rewrite Hc in Hs. injection Hs as ->. cbn. lia.
  - split.
    + intros Hne.
      destruct (snd (dispatch h st ev)) as [|[m v] l] eqn:Hc; [now elim Hne|].
      destruct (dispatch_call h st ev m v) as (_ & Ht & Hcase).
      { rewrite Hc. now left. }
      split; [exact Ht|].
      destruct Hcase as [(-> & Hd & _) | [(-> & Hd & _) | (i & r & -> & Hr & _)]].
      * now left.
      * now left.
      * right. exists i. split; [reflexivity|].
        apply nth_error_Some. congruence.
    + intros (Ht & Hcase). unfold dispatch. rewrite (Categories_page h st Ht).
      destruct Hcase as [(-> & Hd) | (i & -> & Hi)]; cbn.
      * rewrite Hd. cbn.
        destruct (JS.truthy (opt_nodeId (entity st))) eqn:Hk.
        -- destruct (entity st) as [e|] eqn:He; [|discriminate]. cbn in Hk.
           rewrite (handleSave_update e Hk). discriminate.
        -- rewrite (handleSave_create _ Hk). discriminate.
      * rewrite nth_error_map.
        destruct (nth_error (records h) i) as [r|] eqn:Hr; cbn; [discriminate|].
        apply nth_error_None in Hr. lia.
Qed.

(** X8: over any session from any state, every mutation call passes
    exactly the variables its document declares, by name and in order:
    [description] for the create mutation, [nodeId] for the delete
    mutation, [nodeId] and [description] for the update mutation. *)
Theorem X8_calls_pass_declared_variables
    (st : State) (tr : list (HookResults * Event))
    (m : Mutation) (vars : Variables) :
  In (m, vars) (snd (session st tr)) ->
  map fst vars = declared_variables m.
Proof.
  revert st. induction tr as [|[h ev] tr IH]; intros st; cbn; [intros []|].
  destruct (dispatch h st ev) as [st1 c1] eqn:Hd.
  specialize (IH st1). destruct (session st1 tr) as [st2 c2]. cbn in IH |- *.
  rewrite in_app_iff. intros [Hin | Hin]; [|now apply IH].
  destruct (dispatch_call h st ev m vars) as (_ & _ & Hcase).
  { now rewrite Hd. }
  destruct Hcase as [(_ & _ & _ & -> & ->)
                    | [(_ & _ & (e & _ & _ & ->) & ->)
                      | (i & r & _ & _ & -> & ->)]]; reflexivity.
Qed.

(** Saving a new draft after one keystroke. *)
Lemma X8_calls_pass_declared_variables_witness :
  let h := {| loading := false; error := None;
              data := Some {| allCategories := {| nodes := [] |} |};
              errorAdding := None; errorDeleting := None;
              errorUpdating := None |} in
  map fst [("description", Some "Veg")] = declared_variables ADD_ENTITY.
Proof.
  intros h.
  refine (X8_calls_pass_declared_variables initialState
            [(h, ClickNew); (h, Input "Veg"); (h, ClickSave)] ADD_ENTITY _ _).
  cbn. left. reflexivity.
Defined.

(** ** Sessions *)

Lemma draft_from_dispatch (seen : list Entity) (h : HookResults)
      (st : State) (ev : Event) :
  draft_from seen st ->
  draft_from (seen ++ records h) (fst (dispatch h st ev)).
Proof.
  intros Hinv e He.
  destruct (dispatch_entity h st ev) as [H | [H | [(r & Hr & H) | (v & H)]]];
    rewrite H in He.
  - destruct (Hinv e He) as [Hn | (r & Hr & Hn)]; [now left|].
    right. exists r. split; [apply in_or_app; now left | exact Hn].
  - discriminate.
  - injection He as <-. right. exists r.
    split; [apply in_or_app; now right | reflexivity].
  - injection He as <-. destruct (entity st) as [e0|] eqn:E0; cbn; [|now left].
    destruct (Hinv e0 E0) as [Hn | (r & Hr & Hn)]; [now left|].
    right. exists r. split; [apply in_or_app; now left | exact Hn].
Qed.

Lemma session_calls_from (tr : list (HookResults * Event)) :
  forall (seen : list Entity) (st : State) (m : Mutation) (vars : Variables),
  draft_from seen st ->
  In (m, vars) (snd (session st tr)) ->
  (m = ADD_ENTITY /\ variable "nodeId" vars = None) \/
  (m <> ADD_ENTITY /\
   exists r, In r (seen ++ loaded tr) /\ variable "nodeId" vars = Some (nodeId r) /\
             (m = UPDATE_ENTITY -> exists k, nodeId r = Some k /\ k <> "")).
Proof.
  induction tr as [|[h ev] tr IH]; intros seen st m vars Hinv; cbn; [intros []|].
  pose proof (draft_from_dispatch seen h st ev Hinv) as Hinv'.
  destruct (dispatch h st ev) as [st1 c1] eqn:Hd. cbn in Hinv'.
  specialize (IH (seen ++ records h)%list st1 m vars Hinv').
  destruct (session st1 tr) as [st2 c2]. cbn in IH |- *.
  unfold loaded in IH |- *. cbn [flat_map fst].
  rewrite in_app_iff. intros [Hin | Hin].
  - destruct (dispatch_call h st ev m vars) as (_ & _ & Hcase).
    { now rewrite Hd. }
    destruct Hcase as [(_ & _ & _ & -> & ->)
                      | [(_ & _ & (e & He & Hk & ->) & ->)
                        | (i & r & _ & Hr & -> & ->)]].
    + left. split; reflexivity.
    + right. split; [discriminate|].
      apply JSFacts.truthy_true_iff in Hk as (k & Hk & Hne).
      destruct (Hinv e He) as [Hn | (r & Hin' & Hn)]; [congruence|].
      exists r. split; [apply in_or_app; now left|].
      split; [cbn; now rewrite Hn|].
      intros _. exists k. split; [congruence | exact Hne].
    + right. split; [discriminate|]. exists r.
      split; [|split; [reflexivity | discriminate]].
      apply in_or_app. right. apply in_or_app. left.
      eapply nth_error_In; eassumption.
  - destruct (IH Hin) as [Hadd | (Hne & r & Hr & Hv & Hk)]; [now left|].
    right. split; [exact Hne|]. exists r.
    split; [now rewrite app_assoc | split; assumption].
Qed.

(** X9: in any session that starts from the initial state, a create call
    carries no [nodeId] at all, and every update or delete call carries
    the [nodeId] of a record that the query delivered at some render of
    the session; for an update call that [nodeId] is a non-empty string.
    The component never addresses a record it was not given. *)
Theorem X9_keys_come_from_loaded_records
    (tr : list (HookResults * Event)) (m : Mutation) (vars : Variables) :
  In (m, vars) (snd (session initialState tr)) ->
  (m = ADD_ENTITY /\ variable "nodeId" vars = None) \/
  (m <> ADD_ENTITY /\
   exists r, In r (loaded tr) /\ variable "nodeId" vars = Some (nodeId r) /\
             (m = UPDATE_ENTITY -> exists k, nodeId r = Some k /\ k <> "")).
Proof.
  intros Hin.
  apply (session_calls_from tr [] initialState m vars); [|exact Hin].
  intros e He. discriminate.
Qed.

(** Editing the loaded record and saving it. *)
Lemma X9_keys_come_from_loaded_records_witness :
  let k1 := {| nodeId := Some "k1"; id := Some 1%Z; description := Some "Fruit" |} in
  let h := {| loading := false; error := None;
              data := Some {| allCategories := {| nodes := [k1] |} |};
              errorAdding := None; errorDeleting := None;
              errorUpdating := None |} in
  let tr := [(h, ClickEdit 0); (h, Input "Fruits"); (h, ClickSave)] in
  let vars := [("nodeId", Some "k1"); ("description", Some "Fruits")] in
  (UPDATE_ENTITY = ADD_ENTITY /\ variable "nodeId" vars = None) \/
  (UPDATE_ENTITY <> ADD_ENTITY /\
   exists r, In r (loaded tr) /\ variable "nodeId" vars = Some (nodeId r) /\
             (UPDATE_ENTITY = UPDATE_ENTITY -> exists k, nodeId r = Some k /\ k <> "")).
Proof.
  intros k1 h tr vars.
  apply (X9_keys_come_from_loaded_records tr UPDATE_ENTITY vars).
  cbn. left. reflexivity.
Defined.

(** X10: if every record the query delivers during a session has both an
    [id] and a [nodeId], then after the session, started from the initial
    state, the draft is absent, or has neither [id] nor [nodeId] (a new
    draft), or has both (an existing record): no event produces a draft
    with only one of the two. *)
Theorem X10_draft_new_or_existing (tr : list (HookResults * Event)) :
  Forall (fun r => id r <> None /\ nodeId r <> None) (loaded tr) ->
  forall e, entity (fst (session initialState tr)) = Some e -> new_or_existing e.
Proof.
  assert (Hgen : forall tr st,
             (forall e, entity st = Some e -> new_or_existing e) ->
             Forall (fun r => id r <> None /\ nodeId r <> None) (loaded tr) ->
             forall e, entity (fst (session st tr)) = Some e -> new_or_existing e).
  { clear tr. induction tr as [|[h ev] tr IH]; intros st Hst Hall; cbn; [exact Hst|].
    unfold loaded in Hall. cbn [flat_map fst] in Hall.
    apply Forall_app in Hall as (Hh & Hall).
    destruct (dispatch h st ev) as [st1 c1] eqn:Hd.
    assert (Hst1 : forall e, entity st1 = Some e -> new_or_existing e).
    { intros e He.
      destruct (dispatch_entity h st ev) as [H | [H | [(r & Hr & H) | (v & H)]]];
        rewrite Hd in H; cbn in H; rewrite H in He.
      - now apply Hst.
      - discriminate.
      - injection He as <-. right.
        rewrite Forall_forall in Hh. now apply Hh.
      - injection He as <-. destruct (entity st) as [e0|] eqn:E0; cbn.
        + exact (Hst e0 eq_refl).
        + left. split; reflexivity. }
    specialize (IH st1 Hst1 Hall).
    destruct (session st1 tr) as [st2 c2]. exact IH. }
  intros Hall. apply (Hgen tr initialState); [|exact Hall].
  intros e He. discriminate.
Qed.

(** The draft after "Edit" on a well-formed record and one keystroke. *)
Lemma X10_draft_new_or_existing_witness :
  let k1 := {| nodeId := Some "k1"; id := Some 1%Z; description := Some "Fruit" |} in
  let h := {| loading := false; error := None;
              data := Some {| allCategories := {| nodes := [k1] |} |};
              errorAdding := None; errorDeleting := None;
              errorUpdating := None |} in
  new_or_existing {| nodeId := Some "k1"; id := Some 1%Z;
                     description := Some "Fruits" |}.
Proof.
  intros k1 h.
  refine (X10_draft_new_or_existing [(h, ClickEdit 0); (h, Input "Fruits")] _ _ eq_refl).
  cbn. repeat constructor; discriminate.
Defined.

(** ** Typing and saving *)

Lemma last_cons_default {A : Type} (l : list A) (a d : A) :
  last (a :: l) d = last l a.
Proof.
  revert a d. induction l as [|b l IH]; intros a d; [reflexivity|].
  change (last (a :: b :: l) d) with (last (b :: l) d).
  now rewrite (IH b d), (IH b a).
Qed.

(** A run of keystrokes in the open dialog calls no mutation, keeps the
    dialog open and folds the typed values into the draft. *)
Lemma session_keystrokes (ks : list (HookResults * string)) :
  forall ent : option Entity,
  Forall (fun p => shows_table (fst p) = true) ks ->
  session {| displayModal := true; entity := ent |} (keystrokes ks) =
  ({| displayModal := true;
      entity := fold_left (fun e p => Some (spread_description e (snd p))) ks ent |},
   []).
Proof.
  induction ks as [|[h v] ks IH]; intros ent Hall; [reflexivity|].
  inversion Hall as [|? ? Hh Hks]; subst. cbn in Hh.
  cbn [keystrokes map session fst snd].
  unfold dispatch. rewrite (Categories_page h _ Hh). cbn.
  fold (keystrokes ks). rewrite (IH _ Hks). reflexivity.
Qed.

Lemma typed_draft (ks : list (HookResults * string)) :
  forall e : Entity,
  fold_left (fun e p => Some (spread_description e (snd p))) ks (Some e) =
  Some {| nodeId := nodeId e; id := id e;
          description := last (map (fun p => Some (snd p)) ks) (description e) |}.
Proof.
  induction ks as [|[h v] ks IH]; intros e; cbn [fold_left map].
  - now destruct e.
  - cbn [spread_description snd]. rewrite IH. cbn [nodeId id description].
    now rewrite last_cons_default.
Qed.

(** X11: "New", then any run of keystrokes ending in a value, then
    [onSave], each at a render that shows the table: the session makes
    exactly one mutation call, the create mutation with that last value as
    its only variable, and ends with the dialog closed.  The state it
    started from and the earlier keystrokes leave no trace in the call. *)
Theorem X11_new_type_save
    (st : State) (h0 hl hs : HookResults)
    (ks : list (HookResults * string)) (v : string) :
  shows_table h0 = true ->
  Forall (fun p => shows_table (fst p) = true) ks ->
  shows_table hl = true ->
  shows_table hs = true ->
  session st ((h0, ClickNew) :: keystrokes (ks ++ [(hl, v)]) ++ [(hs, ClickSave)]) =
  ({| displayModal := false;
      entity := Some {| nodeId := None; id := None; description := Some v |} |},
   [(ADD_ENTITY, [("description", Some v)])]).
Proof.
  intros H0 Hks Hl Hs.
  assert (Hall : Forall (fun p => shows_table (fst p) = true) (ks ++ [(hl, v)])).
  { apply Forall_app. split; [exact Hks | now constructor]. }
  assert (Hd : fold_left (fun e p => Some (spread_description e (snd p)))
                 (ks ++ [(hl, v)]) None =
               Some {| nodeId := None; id := None; description := Some v |}).
  { destruct ks as [|[h1 v1] ks]; [reflexivity|].
    cbn [app fold_left spread_description snd]. rewrite typed_draft.
    cbn [nodeId id description]. rewrite map_app. cbn [map snd].
    now rewrite last_last. }
  cbn [session]. unfold dispatch at 1. rewrite (Categories_page h0 st H0). cbn.
  rewrite session_app, (session_keystrokes _ None Hall), Hd. cbn [fst snd].
  cbn [session]. unfold dispatch. rewrite (Categories_page hs _ Hs). cbn.
  reflexivity.
Qed.

(** Scenario: "New", type "V", "Ve", "Veg", save. *)
Lemma X11_new_type_save_witness :
  let h := {| loading := false; error := None;
              data := Some {| allCategories := {| nodes := [] |} |};
              errorAdding := None; errorDeleting := None;
              errorUpdating := None |} in
  snd (session initialState
         ((h, ClickNew) :: keystrokes ([(h, "V"); (h, "Ve")] ++ [(h, "Veg")])
            ++ [(h, ClickSave)])) =
  [(ADD_ENTITY, [("description", Some "Veg")])].
Proof.
  intros h.
  assert (Hks : Forall (fun p : HookResults * string => shows_table (fst p) = true)
                  [(h, "V"); (h, "Ve")])
    by (repeat constructor).
  rewrite (X11_new_type_save initialState h h h [(h, "V"); (h, "Ve")] "Veg"
             eq_refl Hks eq_refl eq_refl).
  reflexivity.
Defined.

(** X12: "Edit" on the row of a loaded record whose [nodeId] is a
    non-empty string, then any run of keystrokes, then [onSave], each at a
    render that shows the table: the session makes exactly one mutation
    call, the update mutation with that record's [nodeId] and, as
    description, the last value typed (the record's own description when
    nothing was typed), and ends with the dialog closed.  However much is
    typed, the save of an edited record never turns into a create. *)
Theorem X12_edit_type_save
    (st : State) (h0 hs : HookResults) (i : nat) (r : Entity) (k : string)
    (ks : list (HookResults * string)) :
  shows_table h0 = true ->
  nth_error (records h0) i = Some r ->
  nodeId r = Some k ->
  k <> "" ->
  Forall (fun p => shows_table (fst p) = true) ks ->
  shows_table hs = true ->
  let d := last (map (fun p => Some (snd p)) ks) (description r) in
  session st ((h0, ClickEdit i) :: keystrokes ks ++ [(hs, ClickSave)]) =
  ({| displayModal := false;
      entity := Some {| nodeId := Some k; id := id r; description := d |} |},
   [(UPDATE_ENTITY, [("nodeId", Some k); ("description", d)])]).
Proof.
  intros H0 Hr Hk Hne Hks Hs d.
  cbn [session]. unfold dispatch at 1. rewrite (Categories_page h0 st H0). cbn.
  rewrite (map_nth_error renderRow _ _ Hr). cbn.
  rewrite session_app, (session_keystrokes _ (Some r) Hks), typed_draft.
  cbn [fst snd]. fold d. rewrite Hk.
  cbn [session]. unfold dispatch. rewrite (Categories_page hs _ Hs). cbn.
  rewrite handleSave_update.
  - reflexivity.
  - cbn [nodeId]. apply JSFacts.truthy_true_iff. now exists k.
Qed.

(** Scenario: "Edit" on the record "Fruit", type "Fruits", save. *)
Lemma X12_edit_type_save_witness :
  let k1 := {| nodeId := Some "k1"; id := Some 1%Z; description := Some "Fruit" |} in
  let h := {| loading := false; error := None;
              data := Some {| allCategories := {| nodes := [k1] |} |};
              errorAdding := None; errorDeleting := None;
              errorUpdating := None |} in
  snd (session initialState
         ((h, ClickEdit 0) :: keystrokes [(h, "Fruits")] ++ [(h, ClickSave)])) =
  [(UPDATE_ENTITY, [("nodeId", Some "k1"); ("description", Some "Fruits")])].
Proof.
  intros k1 h.
  assert (Hks : Forall (fun p : HookResults * string => shows_table (fst p) = true)
                  [(h, "Fruits")])
    by (repeat constructor).
  assert (Hne : "k1" <> "") by discriminate.
  rewrite (X12_edit_type_save initialState h h 0 k1 "k1" [(h, "Fruits")]
             eq_refl eq_refl eq_refl Hne Hks eq_refl).
  reflexivity.
Defined.

(** ** The table *)

(** X13: when the page is rendered, the table has exactly one row per
    record of the loaded list, in the order of the list; the row at a
    position shows that record's [id] and [description], is keyed by its
    [id], and its "Edit" action calls no mutation and opens the dialog on
    that very record. *)
Theorem X13_rows_follow_records (h : HookResults) (st : State) :
  shows_table h = true ->
  length (rows_of (Categories h st)) = length (records h) /\
  forall i r, nth_error (records h) i = Some r ->
    exists row, nth_error (rows_of (Categories h st)) i = Some row /\
                key row = id r /\ idCell row = id r /\
                descriptionCell row = description r /\
                mutations (effects (onEdit row)) = [] /\
                forall st', run st' (onEdit row) =
                            {| displayModal := true; entity := Some r |}.
Proof.
  intros Ht. rewrite (Categories_page h st Ht). cbn [rows_of].
  split; [apply length_map|].
  intros i r Hr. exists (renderRow r).
  split; [now apply map_nth_error|]. repeat split.
Qed.

(** The one row of a one-record list. *)
Lemma X13_rows_follow_records_witness :
  let k1 := {| nodeId := Some "k1"; id := Some 1%Z; description := Some "Fruit" |} in
  let h := {| loading := false; error := None;
              data := Some {| allCategories := {| nodes := [k1] |} |};
              errorAdding := None; errorDeleting := None;
              errorUpdating := None |} in
  length (rows_of (Categories h initialState)) = 1.
Proof.
  intros k1 h.
  exact (proj1 (X13_rows_follow_records h initialState eq_refl)).
Defined.

(** ** What cannot happen *)

(** X14: a session without [onSave] and without "Delete", however long,
    calls no mutation: opening the dialog, typing into it and closing it
    never reach the server, so a draft that is closed unsaved is never
    sent. *)
Theorem X14_no_write_without_save_or_delete
    (st : State) (tr : list (HookResults * Event)) :
  Forall (fun p => is_write (snd p) = false) tr ->
  snd (session st tr) = [].
Proof.
  revert st. induction tr as [|[h ev] tr IH]; intros st Hall; [reflexivity|].
  inversion Hall as [|? ? Hev Htr]; subst. cbn in Hev. cbn [session].
  destruct (dispatch h st ev) as [st1 c1] eqn:Hd.
  specialize (IH st1 Htr). destruct (session st1 tr) as [st2 c2].
  cbn in IH |- *. subst c2. rewrite app_nil_r.
  destruct c1 as [|[m v] c1]; [reflexivity|].
  destruct (dispatch_call h st ev m v) as (_ & _ & Hcase).
  { rewrite Hd. now left. }
  destruct Hcase as [(-> & _) | [(-> & _) | (i & r & -> & _)]]; discriminate.
Qed.

(** "Edit", type, close. *)
Lemma X14_no_write_without_save_or_delete_witness :
  let k1 := {| nodeId := Some "k1"; id := Some 1%Z; description := Some "Fruit" |} in
  let h := {| loading := false; error := None;
              data := Some {| allCategories := {| nodes := [k1] |} |};
              errorAdding := None; errorDeleting := None;
              errorUpdating := None |} in
  snd (session initialState
         [(h, ClickEdit 0); (h, Input "Fruits"); (h, ClickClose)]) = [].
Proof.
  intros k1 h.
  apply X14_no_write_without_save_or_delete.
  repeat constructor.
Defined.

(** X15: the loading line, the error line and the no-records line are
    dead ends: exactly when the component does not render the page, no
    event changes the state or calls a mutation.  And the dialog is part
    of the rendered tree exactly when the page is rendered and the dialog
    flag is set, so a dialog that is open disappears from the tree, with
    its draft kept in the state, for as long as one of the three lines is
    shown. *)
Theorem X15_lines_are_dead_ends (h : HookResults) (st : State) :
  (shows_table h = false <-> forall ev, dispatch h st ev = (st, [])) /\
  (modal_of (Categories h st) <> None <->
   shows_table h = true /\ displayModal st = true).
Proof.
  split; split.
  - intros Ht ev. unfold dispatch.
    destruct (Categories_span h st Ht) as (t & ->). reflexivity.
  - intros Hall. destruct (shows_table h) eqn:Ht; [exfalso | reflexivity].
    destruct st as [[|] ent].
    + specialize (Hall ClickClose). unfold dispatch in Hall.
      rewrite (Categories_page h _ Ht) in Hall. cbn in Hall. discriminate.
    + specialize (Hall ClickNew). unfold dispatch in Hall.
      rewrite (Categories_page h _ Ht) in Hall. cbn in Hall. discriminate.
  - intros Hm. destruct (modal_of (Categories h st)) as [m|] eqn:E; [|now elim Hm].
    destruct (modal_inv h st m E) as (Ht & Hd & _). now split.
  - intros (Ht & Hd). rewrite (Categories_page h st Ht), Hd. cbn. discriminate.
Qed.
